(** * hound: the variable-length format checker

    A shallow embedding of [scripts/formatchecker/varlen_fmt.py] and the
    properties of its [check] function.

    The checker receives the format list of a driver schema, already loaded
    into Python objects, and raises [FormatError] when a format of size 0
    stands anywhere but at the end of the list. *)

From Stdlib Require Import ZArith QArith Qpower List String Ascii Bool Lia.
From Stdlib Require Import DecimalString Floats.SpecFloat.
Import ListNotations.

Local Open Scope string_scope.
Local Open Scope Z_scope.

(** ** Python values *)

Module Py.

(** The objects a schema loader hands to the checker: [None], booleans,
    integers, floats, text, lists and dicts with text keys.  An integer is
    any [Z] (CPython refuses to write one of more than 4300 digits as text;
    loaders do not produce such integers); a float is its IEEE 754 datum;
    text is a string of code points below 256; a dict is the list of its
    items in insertion order (keys of a real dict are distinct; no statement
    below depends on it). *)
#[local] Set Warnings "-register-all".
Inductive value : Type :=
| VNone
| VBool (b : bool)
| VInt (n : Z)
| VFloat (x : spec_float)
| VStr (s : string)
| VList (items : list value)
| VDict (entries : list (string * value)).

Definition dict : Type := list (string * value).

(** Exceptions the checker meets: the [KeyError] of a failed subscript and
    the [FormatError] of jsonschema, which holds one message. *)
Inductive exn : Type :=
| KeyError (key : string)
| FormatError (message : string).

(** The outcome of evaluating Python code: a value or a raised exception. *)
Inductive outcome (A : Type) : Type :=
| Returned (a : A)
| Raised (e : exn).
Arguments Returned {A} a.
Arguments Raised {A} e.

Definition bind {A B} (c : outcome A) (k : A -> outcome B) : outcome B :=
  match c with
  | Returned a => k a
  | Raised e => Raised e
  end.

(** [d[key]] on a dict. *)
Fixpoint getitem (d : dict) (key : string) : outcome value :=
  match d with
  | [] => Raised (KeyError key)
  | (k, v) :: rest => if String.eqb k key then Returned v else getitem rest key
  end.

(** [key in d] *)
Definition contains (d : dict) (key : string) : bool :=
  existsb (fun kv => String.eqb (fst kv) key) d.

(** *** Comparison with an integer: [v == n]

    Numbers compare by their exact value across [bool], [int] and [float];
    every other object is unequal to an integer. *)
Definition float_eq_int (x : spec_float) (n : Z) : bool :=
  match x with
  | S754_zero _ => n =? 0
  | S754_finite s m e =>
      let sm := if s then Z.neg m else Z.pos m in
      if 0 <=? e then n =? sm * 2 ^ e else n * 2 ^ (- e) =? sm
  | S754_infinity _ | S754_nan => false
  end.

Definition eq_int (v : value) (n : Z) : bool :=
  match v with
  | VBool b => Z.b2z b =? n
  | VInt k => k =? n
  | VFloat x => float_eq_int x n
  | VNone | VStr _ | VList _ | VDict _ => false
  end.

(** *** [repr]

    The text Python shows for an object; [str] of a dict, a list, a number,
    [None] or a boolean is its [repr]. *)

Definition repr_int (n : Z) : string := NilZero.string_of_int (Z.to_int n).

(** Text is quoted with a single quote, or with a double quote when it
    holds a single quote and no double one;
    the quote and the backslash are escaped, tab, newline and carriage
    return get their letter, and every other code point that is not
    printable is written in hexadecimal. *)
Definition hex_digit (n : N) : ascii :=
  ascii_of_N (if (n <? 10)%N then 48 + n else 87 + n)%N.

Definition single_quote : ascii := ascii_of_nat 39.
Definition double_quote : ascii := ascii_of_nat 34.

Definition quote_char (s : string) : ascii :=
  if existsb (Ascii.eqb single_quote) (list_ascii_of_string s)
     && negb (existsb (Ascii.eqb double_quote) (list_ascii_of_string s))
  then double_quote else single_quote.

Definition printable (c : N) : bool :=
  ((32 <=? c) && (c <? 127) || (161 <=? c) && negb (c =? 173))%N.

Definition escape_char (quote c : ascii) : string :=
  let n := N_of_ascii c in
  if Ascii.eqb c quote || Ascii.eqb c "\" then String "\" (String c "")
  else if (n =? 9)%N then "\t"
  else if (n =? 10)%N then "\n"
  else if (n =? 13)%N then "\r"
  else if printable n then String c ""
  else String "\" (String "x" (String (hex_digit (n / 16))
                                 (String (hex_digit (n mod 16)) ""))).

Definition repr_str (s : string) : string :=
  let q := quote_char s in
  String q (concat "" (map (escape_char q) (list_ascii_of_string s))
            ++ String q "").

(** A float is shown by the shortest run of decimal digits that reads back
    as the same binary64 number, the nearest to it among the shortest, in
    positional notation when the decimal point falls within the first 16
    places or up to 4 zeros before the digits, with an exponent otherwise.
    [scaled_compare d k n e] compares [d * 10^k] with [n * 2^e]. *)
Definition scaled_compare (d k n e : Z) : comparison :=
  (d * 10 ^ Z.max k 0 * 2 ^ Z.max (- e) 0)
  ?= (n * 2 ^ Z.max e 0 * 10 ^ Z.max (- k) 0).

Definition scaled_floor (n e k : Z) : Z :=
  (n * 2 ^ Z.max e 0 * 10 ^ Z.max (- k) 0)
  / (2 ^ Z.max (- e) 0 * 10 ^ Z.max k 0).

Definition decimal_exponent (m e : Z) : Z :=
  let p := (Z.log2 m + e) * 30103 / 100000 in
  match scaled_compare 1 (p + 1) m e with
  | Gt => match scaled_compare 1 p m e with Gt => p - 1 | _ => p end
  | _ => p + 1
  end.

Definition normalize (m e : Z) : Z * Z :=
  let shift := Z.max 0 (Z.min (52 - Z.log2 m) (e + 1074)) in
  (m * 2 ^ shift, e - shift).

Fixpoint shortest (steps : nat) (n : Z) (m e p : Z) : Z * Z :=
  let k := p - n + 1 in
  let dl := scaled_floor m e k in
  let dh := dl + 1 in
  let even := Z.even m in
  let below :=
    if (m =? 2 ^ 52) && (-1074 <? e) then 4 * m - 1 else 4 * m - 2 in
  let low_ok := match scaled_compare dl k below (e - 2) with
                | Gt => true | Eq => even | Lt => false end in
  let high_ok := match scaled_compare dh k (4 * m + 2) (e - 2) with
                 | Lt => true | Eq => even | Gt => false end in
  let nearest := match scaled_compare (2 * dl + 1) k (2 * m) e with
                 | Lt => dh
                 | Gt => dl
                 | Eq => if Z.even dl then dl else dh
                 end in
  match steps with
  | O => (nearest, k)
  | S steps' =>
      if low_ok && high_ok then (nearest, k)
      else if low_ok then (dl, k)
      else if high_ok then (dh, k)
      else shortest steps' (n + 1) m e p
  end.

Fixpoint strip_zeros (fuel : nat) (d k : Z) : Z * Z :=
  match fuel with
  | O => (d, k)
  | S fuel' =>
      if (d mod 10 =? 0) && negb (d =? 0)
      then strip_zeros fuel' (d / 10) (k + 1) else (d, k)
  end.

Fixpoint zeros (n : nat) : string :=
  match n with O => "" | S n' => String "0" (zeros n') end.

Definition two_digits (n : Z) : string :=
  if n <? 10 then String "0" (repr_int n) else repr_int n.

Definition format_digits (digits : string) (decpt : Z) : string :=
  let len := String.length digits in
  let nd := Z.of_nat len in
  if (decpt <=? -4) || (16 <? decpt) then
    let exp := decpt - 1 in
    String.substring 0 1 digits
    ++ (if 1 <? nd then "." ++ String.substring 1 (len - 1) digits else "")
    ++ "e" ++ (if exp <? 0 then "-" else "+") ++ two_digits (Z.abs exp)
  else if decpt <=? 0 then "0." ++ zeros (Z.to_nat (- decpt)) ++ digits
  else if nd <=? decpt then digits ++ zeros (Z.to_nat (decpt - nd)) ++ ".0"
  else String.substring 0 (Z.to_nat decpt) digits ++ "."
       ++ String.substring (Z.to_nat decpt) (len - Z.to_nat decpt) digits.

Definition repr_float (x : spec_float) : string :=
  match x with
  | S754_zero s => if s then "-0.0" else "0.0"
  | S754_infinity s => if s then "-inf" else "inf"
  | S754_nan => "nan"
  | S754_finite s m e =>
      let '(m', e') := normalize (Z.pos m) e in
      let '(d, k) := shortest 16 1 m' e' (decimal_exponent m' e') in
      let '(d', k') := strip_zeros 20 d k in
      let digits := repr_int d' in
      (if s then "-" else "")
      ++ format_digits digits (Z.of_nat (String.length digits) + k')
  end.

Fixpoint repr (v : value) : string :=
  match v with
  | VNone => "None"
  | VBool b => if b then "True" else "False"
  | VInt n => repr_int n
  | VFloat x => repr_float x
  | VStr s => repr_str s
  | VList items =>
      "[" ++ (fix join (l : list value) : string :=
                match l with
                | [] => ""
                | x :: tl =>
                    repr x ++ match tl with [] => "" | _ => ", " ++ join tl end
                end) items ++ "]"
  | VDict entries =>
      "{" ++ (fix join (l : list (string * value)) : string :=
                match l with
                | [] => ""
                | (k, x) :: tl =>
                    repr_str k ++ ": " ++ repr x
                    ++ match tl with [] => "" | _ => ", " ++ join tl end
                end) entries ++ "}"
  end.

(** [str(v)]: text stands for itself, everything else for its [repr]. *)
Definition str (v : value) : string :=
  match v with
  | VStr s => s
  | _ => repr v
  end.

End Py.

(** ** The checker: [scripts/formatchecker/varlen_fmt.py] *)

Module VarlenFmt.
Import Py.

Definition FORMAT_NAME : string := "varlen-fmt".

Definition LF : string := String (ascii_of_nat 10) "".

(** The message of the raised [FormatError]: the literal of the source,
    whose three lines keep their indentation, with [fmt] put in by [%s]. *)
Definition message_template : string :=
  "    variable-length (size 0) property must be the last format" ++ LF ++
  "    specified but is not" ++ LF ++
  "    fmt: ".

Definition format_message (fmt : dict) : string :=
  message_template ++ str (VDict fmt).

(** The body of the loop, for the item [(i, fmt)] of [enumerate(fmt_list)].
    The [try] holds the subscript alone: its [KeyError] leads to [continue],
    the next item; any other exception would pass through.  [Returned tt]
    is the end of the body, from which the loop goes to the next item. *)
Definition body (fmt_list : list dict) (i : nat) (fmt : dict) : outcome unit :=
  match getitem fmt "size" with
  | Raised (KeyError _) => Returned tt
  | Raised e => Raised e
  | Returned size =>
      if eq_int size 0
         && negb (Z.of_nat i =? Z.of_nat (List.length fmt_list) - 1)
      then Raised (FormatError (format_message fmt))
      else Returned tt
  end.

(** [for i, x in enumerate(xs, i0): body] *)
Fixpoint for_enumerate {A} (body : nat -> A -> outcome unit)
    (i : nat) (xs : list A) : outcome unit :=
  match xs with
  | [] => Returned tt
  | x :: rest => bind (body i x) (fun _ => for_enumerate body (S i) rest)
  end.

Definition check (fmt_list : list dict) : outcome bool :=
  bind (for_enumerate (body fmt_list) 0%nat fmt_list)
       (fun _ => Returned true).

(** *** The loop, one iteration at a time

    The state of the [for] statement is the count of [enumerate] and the
    items its iterator has still to yield.  A step asks the iterator for
    the next item: none left ends the loop and [check] returns [True];
    otherwise the body runs, and either raises or goes on. *)
Record loop_state : Type := { index : nat; pending : list dict }.

Inductive step_result : Type :=
| Next (s : loop_state)
| Stop (r : outcome bool).

Definition step (fmt_list : list dict) (s : loop_state) : step_result :=
  match pending s with
  | [] => Stop (Returned true)
  | fmt :: rest =>
      match body fmt_list (index s) fmt with
      | Raised e => Stop (Raised e)
      | Returned _ => Next {| index := S (index s); pending := rest |}
      end
  end.

(** [run fuel s] takes at most [fuel] steps from [s]; it gives the indices
    whose body it ran, in the order it ran them, and the result if the
    loop stopped within the fuel. *)
Fixpoint run (fmt_list : list dict) (fuel : nat) (s : loop_state)
    : list nat * option (outcome bool) :=
  match fuel with
  | O => ([], None)
  | S fuel' =>
      match step fmt_list s with
      | Stop r =>
          (match pending s with [] => [] | _ => [index s] end, Some r)
      | Next s' =>
          let '(visited, r) := run fmt_list fuel' s' in
          (index s :: visited, r)
      end
  end.

Definition start (fmt_list : list dict) : loop_state :=
  {| index := 0%nat; pending := fmt_list |}.

(** *** Words of the specification *)

Definition has_size (fmt : dict) : bool := contains fmt "size".

(** A format of variable length: it has a [size] and the size equals 0. *)
Definition varlen (fmt : dict) : bool :=
  match getitem fmt "size" with
  | Returned size => eq_int size 0
  | Raised _ => false
  end.

Definition last_index (fmt_list : list dict) : Z :=
  Z.of_nat (List.length fmt_list) - 1.

(** Index [i] holds a variable-length format and is not the last index. *)
Definition offending (fmt_list : list dict) (i : nat) : Prop :=
  exists fmt, nth_error fmt_list i = Some fmt /\ varlen fmt = true
              /\ Z.of_nat i <> last_index fmt_list.

(** The first position of [xs], counted from [i], that holds a
    variable-length format and is not position [last]. *)
Fixpoint find_offender (last : Z) (i : nat) (xs : list dict)
    : option (nat * dict) :=
  match xs with
  | [] => None
  | x :: rest =>
      if varlen x && negb (Z.of_nat i =? last) then Some (i, x)
      else find_offender last (S i) rest
  end.

(** The number a value stands for, if it is a number: booleans count as 0
    and 1, a finite float as its exact value; infinities and NaN equal no
    number. *)
Definition numeric_value (v : value) : option Q :=
  match v with
  | VBool b => Some (inject_Z (Z.b2z b))
  | VInt n => Some (inject_Z n)
  | VFloat (S754_zero _) => Some 0%Q
  | VFloat (S754_finite s m e) =>
      Some (inject_Z (if s then Z.neg m else Z.pos m) * (2 # 1) ^ e)%Q
  | VFloat (S754_infinity _) | VFloat S754_nan => None
  | VNone | VStr _ | VList _ | VDict _ => None
  end.

Definition numerically_zero (v : value) : Prop :=
  exists q, numeric_value v = Some q /\ (q == 0)%Q.

(** The message the specification quotes for the error. *)
Definition quoted_message : string :=
  "a variable-length (size 0) format must be the last format specified".

(** Two formats agree on [size]: both lack it, or both have it with the
    same value. *)
Definition same_size (a b : dict) : Prop :=
  (has_size a = false /\ has_size b = false)
  \/ exists v, getitem a "size" = Returned v /\ getitem b "size" = Returned v.

End VarlenFmt.

(** ** Format lists of the specification's scenarios *)

Module Scenario.
Import Py.

Definition size (n : Z) : dict := [("size", VInt n)].
Definition name (s : string) : dict := [("name", VStr s)].

(** [[{"size": 4}, {"size": 0}]] *)
Definition varlen_last : list dict := [size 4; size 0].
(** [[{"size": 0}, {"size": 4}]] *)
Definition varlen_first : list dict := [size 0; size 4].
(** [[{"name": "a"}, {"name": "b"}]] *)
Definition no_sizes : list dict := [name "a"; name "b"].
(** [[{"size": 0}]] *)
Definition sole_varlen : list dict := [size 0].
(** [[{"size": 0}, {"size": 0}, {"size": 4}]] *)
Definition two_varlen : list dict := [size 0; size 0; size 4].
(** [[{"name": "a"}, {"size": 0.0}, {"size": 4}]] *)
Definition float_varlen : list dict :=
  [name "a"; [("size", VFloat (S754_zero false))]; size 4].
(** [[{"name": "a", "size": 4}, {"size": 0}]] and
    [[{"size": 4}, {"size": 0, "name": "b"}]] *)
Definition named_sizes : list dict :=
  [[("name", VStr "a"); ("size", VInt 4)]; size 0].
Definition sizes_named : list dict :=
  [size 4; [("size", VInt 0); ("name", VStr "b")]].

End Scenario.

(** ** Properties *)

Import Py VarlenFmt.

(** *** Subscripts *)

Lemma getitem_raises (d : dict) (key : string) (e : exn) :
  getitem d key = Raised e -> e = KeyError key.
Proof.
  induction d as [|[k v] rest IH]; simpl.
  - intros H. inversion H. reflexivity.
  - destruct (String.eqb k key); [discriminate | exact IH].
Qed.

Lemma contains_false_getitem (d : dict) (key : string) :
  contains d key = false <-> getitem d key = Raised (KeyError key).
Proof.
  unfold contains.
  induction d as [|[k v] rest IH]; simpl.
  - split; reflexivity.
  - destruct (String.eqb k key); simpl.
    + split; discriminate.
    + exact IH.
Qed.

Lemma contains_true_getitem (d : dict) (key : string) :
  contains d key = true <-> exists v, getitem d key = Returned v.
Proof.
  destruct (contains d key) eqn:C.
  - split; [intros _ | reflexivity].
    destruct (getitem d key) as [v|e] eqn:G; [now exists v|].
    pose proof (getitem_raises _ _ _ G) as E. subst e.
    apply contains_false_getitem in G. congruence.
  - apply contains_false_getitem in C. rewrite C.
    split; [discriminate | intros [v H]; discriminate].
Qed.

Lemma varlen_has_size (fmt : dict) : varlen fmt = true -> has_size fmt = true.
Proof.
  unfold varlen, has_size. intros H.
  apply contains_true_getitem.
  destruct (getitem fmt "size") as [v|e]; [now exists v | discriminate].
Qed.

(** *** The body of the loop *)

Lemma body_spec (fmt_list : list dict) (i : nat) (fmt : dict) :
  body fmt_list i fmt =
  if varlen fmt && negb (Z.of_nat i =? last_index fmt_list)
  then Raised (FormatError (format_message fmt))
  else Returned tt.
Proof.
  unfold body, varlen, last_index.
  destruct (getitem fmt "size") as [size|e] eqn:G; simpl.
  - destruct (eq_int size 0 && _); reflexivity.
  - apply getitem_raises in G as ->. reflexivity.
Qed.

Lemma body_outcomes (fmt_list : list dict) (i : nat) (fmt : dict) :
  body fmt_list i fmt = Returned tt
  \/ body fmt_list i fmt = Raised (FormatError (format_message fmt)).
Proof.
  rewrite body_spec. destruct (varlen fmt && _); auto.
Qed.

(** *** The scan and its first offender *)

Lemma find_offender_Some (last : Z) (xs : list dict) :
  forall (i j : nat) (fmt : dict),
    find_offender last i xs = Some (j, fmt) ->
    exists n, j = (i + n)%nat /\ nth_error xs n = Some fmt
              /\ varlen fmt = true /\ Z.of_nat j <> last
              /\ forall n' fmt', (n' < n)%nat -> nth_error xs n' = Some fmt' ->
                   varlen fmt' = true -> Z.of_nat (i + n') = last.
Proof.
  induction xs as [|x rest IH]; simpl; intros i j fmt H; [discriminate|].
  destruct (varlen x && negb (Z.of_nat i =? last)) eqn:T.
  - inversion H; subst. apply andb_true_iff in T as [V N].
    apply negb_true_iff, Z.eqb_neq in N.
    exists 0%nat. repeat split; auto.
    intros n' fmt' Hlt. lia.
  - apply IH in H as (n & -> & Hn & V & N & Before).
    exists (S n). repeat split; auto; try lia.
    intros [|n'] fmt' Hlt Hn' V'; simpl in Hn'.
    +
      inversion Hn'; subst. rewrite V' in T. simpl in T.
      apply negb_false_iff, Z.eqb_eq in T. rewrite Nat.add_0_r. exact T.
    + replace (i + S n')%nat with (S i + n')%nat by lia.
      apply (Before n' fmt'); auto. lia.
Qed.

Lemma find_offender_None (last : Z) (xs : list dict) :
  forall i : nat,
    find_offender last i xs = None <->
    forall n fmt, nth_error xs n = Some fmt -> varlen fmt = true ->
                  Z.of_nat (i + n) = last.
Proof.
  induction xs as [|x rest IH]; simpl; intros i.
  - split; [intros _ [|n] fmt H; discriminate | reflexivity].
  - destruct (varlen x && negb (Z.of_nat i =? last)) eqn:T.
    + split; [discriminate|]. intros H.
      apply andb_true_iff in T as [V N].
      apply negb_true_iff, Z.eqb_neq in N.
      specialize (H 0%nat x eq_refl V). rewrite Nat.add_0_r in H. contradiction.
    + rewrite IH. split; intros H.
      * intros [|n] fmt Hn V; simpl in Hn.
        -- inversion Hn; subst. rewrite V in T. simpl in T.
           apply negb_false_iff, Z.eqb_eq in T. rewrite Nat.add_0_r. exact T.
        -- replace (i + S n)%nat with (S i + n)%nat by lia. eauto.
      * intros n fmt Hn V.
        replace (S i + n)%nat with (i + S n)%nat by lia. eauto.
Qed.

Lemma for_enumerate_find (fmt_list xs : list dict) :
  forall i : nat,
    for_enumerate (body fmt_list) i xs =
    match find_offender (last_index fmt_list) i xs with
    | None => Returned tt
    | Some (_, fmt) => Raised (FormatError (format_message fmt))
    end.
Proof.
  induction xs as [|x rest IH]; simpl; intros i; [reflexivity|].
  rewrite body_spec.
  destruct (varlen x && negb (Z.of_nat i =? last_index fmt_list));
    simpl; [reflexivity | apply IH].
Qed.

Lemma check_find (fmt_list : list dict) :
  check fmt_list =
  match find_offender (last_index fmt_list) 0 fmt_list with
  | None => Returned true
  | Some (_, fmt) => Raised (FormatError (format_message fmt))
  end.
Proof.
  unfold check. rewrite for_enumerate_find.
  destruct (find_offender _ _ _) as [[j fmt]|]; reflexivity.
Qed.

Lemma run_find (fmt_list xs : list dict) :
  forall i : nat,
    run fmt_list (S (List.length xs)) {| index := i; pending := xs |} =
    match find_offender (last_index fmt_list) i xs with
    | None => (seq i (List.length xs), Some (Returned true))
    | Some (j, fmt) =>
        (seq i (S (j - i)), Some (Raised (FormatError (format_message fmt))))
    end.
Proof.
  induction xs as [|x rest IH]; intros i; [reflexivity|].
  cbn [List.length find_offender].
  change (run fmt_list (S (S (List.length rest))) {| index := i; pending := x :: rest |})
    with (match step fmt_list {| index := i; pending := x :: rest |} with
          | Stop r => ([i], Some r)
          | Next s' =>
              let '(visited, r) := run fmt_list (S (List.length rest)) s' in
              (i :: visited, r)
          end).
  unfold step. cbn [pending index]. rewrite body_spec.
  destruct (varlen x && negb (Z.of_nat i =? last_index fmt_list)) eqn:T.
  - rewrite Nat.sub_diag. reflexivity.
  - rewrite IH.
    destruct (find_offender (last_index fmt_list) (S i) rest) as [[j fmt]|] eqn:F.
    + apply find_offender_Some in F as (n & -> & _).
      replace (S i + n - i)%nat with (S (S i + n - S i)) by lia. reflexivity.
    + reflexivity.
Qed.

Lemma first_offender_None (fmt_list : list dict) :
  find_offender (last_index fmt_list) 0 fmt_list = None <->
  forall i, ~ offending fmt_list i.
Proof.
  rewrite find_offender_None. unfold offending. split.
  - intros H i (fmt & Hn & V & N). apply N. exact (H i fmt Hn V).
  - intros H n fmt Hn V. simpl.
    destruct (Z.eq_dec (Z.of_nat n) (last_index fmt_list)) as [E|E]; auto.
    exfalso. apply (H n). now exists fmt.
Qed.

Lemma first_offender_Some (fmt_list : list dict) (j : nat) (fmt : dict) :
  find_offender (last_index fmt_list) 0 fmt_list = Some (j, fmt) ->
  nth_error fmt_list j = Some fmt /\ offending fmt_list j
  /\ forall j', (j' < j)%nat -> ~ offending fmt_list j'.
Proof.
  intros H. apply find_offender_Some in H as (n & -> & Hn & V & N & Before).
  simpl. repeat split; auto.
  - now exists fmt.
  - intros j' Hlt (fmt' & Hn' & V' & N'). apply N'.
    exact (Before j' fmt' Hlt Hn' V').
Qed.

Lemma last_index_app (p s : list dict) :
  last_index (p ++ s) = last_index p + Z.of_nat (List.length s).
Proof. unfold last_index. rewrite length_app. lia. Qed.

Lemma filter_none {A} (f : A -> bool) (l : list A) :
  (forall x, In x l -> f x = false) -> filter f l = [].
Proof.
  induction l as [|a l IH]; simpl; intros H; [reflexivity|].
  rewrite (H a (or_introl eq_refl)). apply IH. intros x Hx. apply H. now right.
Qed.

Lemma filter_varlen_only_last (fmt_list : list dict) :
  (forall i fmt, nth_error fmt_list i = Some fmt -> varlen fmt = true ->
                 Z.of_nat i = last_index fmt_list) ->
  (List.length (filter varlen fmt_list) <= 1)%nat.
Proof.
  destruct fmt_list as [|x0 tl] using rev_ind; [simpl; lia|]. clear IHtl.
  intros H. rewrite filter_app.
  assert (E : filter varlen tl = []).
  { apply filter_none. intros fmt Hin.
    apply In_nth_error in Hin as [i Hi].
    destruct (varlen fmt) eqn:V; [exfalso | reflexivity].
    assert (Hlt : (i < List.length tl)%nat)
      by (apply nth_error_Some; congruence).
    specialize (H i fmt). rewrite nth_error_app1 in H by exact Hlt.
    specialize (H Hi V). rewrite last_index_app in H.
    unfold last_index in H. simpl in H. lia. }
  rewrite E. simpl. destruct (varlen x0); simpl; lia.
Qed.

Lemma same_size_varlen (a b : dict) : same_size a b -> varlen a = varlen b.
Proof.
  unfold same_size, has_size, varlen.
  intros [[Ha Hb] | (v & Ha & Hb)].
  - apply contains_false_getitem in Ha, Hb. now rewrite Ha, Hb.
  - now rewrite Ha, Hb.
Qed.

Lemma find_offender_same_size (last : Z) (xs ys : list dict) :
  Forall2 same_size xs ys ->
  forall i, find_offender last i xs = None <-> find_offender last i ys = None.
Proof.
  induction 1 as [|x y xs ys Hxy _ IH]; intros i; simpl; [reflexivity|].
  rewrite (same_size_varlen x y Hxy).
  destruct (varlen y && negb (Z.of_nat i =? last)); [split; discriminate|].
  apply IH.
Qed.

Lemma check_true_find (fmt_list : list dict) :
  check fmt_list = Returned true <->
  find_offender (last_index fmt_list) 0 fmt_list = None.
Proof.
  rewrite check_find.
  destruct (find_offender _ _ _) as [[j fmt]|]; split; congruence.
Qed.

(** *** Equality with 0 *)

Lemma inject_Z_zero (n : Z) : (inject_Z n == 0)%Q <-> n = 0.
Proof. unfold Qeq. simpl. lia. Qed.

Lemma finite_float_nonzero (s : bool) (m : positive) (e : Z) :
  float_eq_int (S754_finite s m e) 0 = false.
Proof.
  unfold float_eq_int.
  destruct (Z.leb_spec 0 e) as [He|He]; apply Z.eqb_neq.
  - pose proof (Z.pow_pos_nonneg 2 e ltac:(lia) He). destruct s; nia.
  - destruct s; lia.
Qed.

Lemma eq_int_zero (v : value) : eq_int v 0 = true <-> numerically_zero v.
Proof.
  unfold numerically_zero.
  destruct v as [ |b|n|x|s|items|entries];
    try (split; [discriminate | intros (q & H & _); discriminate]).
  - unfold eq_int, numeric_value. rewrite Z.eqb_eq, <- inject_Z_zero. split.
    + intros H. eexists. split; [reflexivity | exact H].
    + intros (q & [= <-] & H). exact H.
  - unfold eq_int, numeric_value. rewrite Z.eqb_eq, <- inject_Z_zero. split.
    + intros H. eexists. split; [reflexivity | exact H].
    + intros (q & [= <-] & H). exact H.
  - destruct x as [s|s| |s m e];
      try (split; [discriminate | intros (q & H & _); discriminate]).
    + split; [intros _ | reflexivity].
      exists 0%Q. split; reflexivity.
    + unfold eq_int. rewrite finite_float_nonzero.
      split; [discriminate|].
      intros (q & [= <-] & H). exfalso.
      apply Qmult_integral in H as [H|H].
      * apply inject_Z_zero in H. destruct s; discriminate.
      * revert H. apply Qpower_not_0. discriminate.
Qed.

(** *** The claims *)

(** C1. [check] returns [True] exactly when no format with a size equal to
    0 stands at an index other than the last, and in every other case it
    raises a [FormatError]. *)
Theorem check_true_iff_no_offender (fmt_list : list dict) :
  (check fmt_list = Returned true <-> forall i, ~ offending fmt_list i)
  /\ (check fmt_list = Returned true
      \/ exists message, check fmt_list = Raised (FormatError message)).
Proof.
  split.
  - rewrite check_true_find. apply first_offender_None.
  - rewrite check_find.
    destruct (find_offender _ _ _) as [[j fmt]|]; [right | left; reflexivity].
    now exists (format_message fmt).
Qed.

(** C2. When some format with a size equal to 0 stands before the end,
    [check] raises one error, at the lowest such index: the loop has run
    the bodies of the indices up to that one and no further, and the
    message names the format found there. *)
Theorem check_raises_at_first_offender (fmt_list : list dict) :
  (exists i, offending fmt_list i) ->
  exists i fmt,
    nth_error fmt_list i = Some fmt
    /\ offending fmt_list i
    /\ (forall j, (j < i)%nat -> ~ offending fmt_list j)
    /\ check fmt_list = Raised (FormatError (format_message fmt))
    /\ run fmt_list (S (List.length fmt_list)) (start fmt_list)
       = (seq 0 (S i), Some (Raised (FormatError (format_message fmt)))).
Proof.
  intros [i0 Hoff].
  destruct (find_offender (last_index fmt_list) 0 fmt_list) as [[j fmt]|] eqn:F.
  - pose proof (first_offender_Some _ _ _ F) as (Hn & Hj & Hmin).
    exists j, fmt. repeat split; auto.
    + rewrite check_find, F. reflexivity.
    + unfold start. rewrite run_find, F, Nat.sub_0_r. reflexivity.
  - exfalso. exact (proj1 (first_offender_None fmt_list) F i0 Hoff).
Qed.

(** C4. When [check] returns [True], at most one format of the list has a
    size equal to 0, and such a format is the last element. *)
Theorem check_true_varlen_only_last (fmt_list : list dict) :
  check fmt_list = Returned true ->
  (List.length (filter varlen fmt_list) <= 1)%nat
  /\ forall i fmt, nth_error fmt_list i = Some fmt -> varlen fmt = true ->
                   Z.of_nat i = last_index fmt_list.
Proof.
  intros H. apply check_true_find in H.
  assert (L : forall i fmt, nth_error fmt_list i = Some fmt ->
                varlen fmt = true -> Z.of_nat i = last_index fmt_list).
  { intros i fmt Hn V.
    exact (proj1 (find_offender_None _ _ 0%nat) H i fmt Hn V). }
  split; [apply filter_varlen_only_last|]; exact L.
Qed.

(** C7. [check] terminates: on a list of [n] formats the loop stops within
    [n + 1] steps, having run the body for the indices [0 .. k-1] of some
    [k <= n], each once and in order, and its result is that of [check]. *)
Theorem check_terminates (fmt_list : list dict) :
  exists k, (k <= List.length fmt_list)%nat
    /\ run fmt_list (S (List.length fmt_list)) (start fmt_list)
       = (seq 0 k, Some (check fmt_list)).
Proof.
  unfold start. rewrite run_find, check_find.
  destruct (find_offender _ _ _) as [[j fmt]|] eqn:F.
  - exists (S j). rewrite Nat.sub_0_r. split; [|reflexivity].
    apply first_offender_Some in F as (Hn & _).
    apply Nat.le_succ_l, nth_error_Some. congruence.
  - exists (List.length fmt_list). split; [lia | reflexivity].
Qed.

(** C8. On a list of exactly one format [check] returns [True], whatever
    the format holds. *)
Theorem check_singleton (fmt : dict) : check [fmt] = Returned true.
Proof.
  unfold check. simpl. rewrite body_spec.
  change (last_index [fmt]) with 0. simpl.
  rewrite andb_false_r. reflexivity.
Qed.

(** C9. Success is closed under prefixes: when [check] returns [True] on a
    list it returns [True] on every prefix of it. *)
Theorem check_prefix_closed (p s : list dict) :
  check (p ++ s) = Returned true -> check p = Returned true.
Proof.
  rewrite !check_true_find, !find_offender_None.
  intros H n fmt Hn V.
  assert (Hlt : (n < List.length p)%nat) by (apply nth_error_Some; congruence).
  specialize (H n fmt). rewrite nth_error_app1 in H by exact Hlt.
  specialize (H Hn V). rewrite last_index_app in H.
  unfold last_index in *. lia.
Qed.

(** C10. Whether [check] succeeds depends on the [size] entries alone: on
    two lists of the same length whose formats, index by index, both lack
    [size] or both have the same [size], it succeeds on both or on
    neither. *)
Theorem check_depends_on_sizes (xs ys : list dict) :
  Forall2 same_size xs ys ->
  (check xs = Returned true <-> check ys = Returned true).
Proof.
  intros H. rewrite !check_true_find.
  assert (E : last_index xs = last_index ys)
    by (unfold last_index; now rewrite (Forall2_length H)).
  rewrite E. now apply find_offender_same_size.
Qed.

(** C3, as amended.  Whenever [check] fails, the error is a [FormatError]
    that holds one message: the fixed text of the source, followed by the
    text [str] gives for the offending format.  The format is part of the
    message and is no field of its own. *)
Theorem check_error_message (fmt_list : list dict) (e : exn) :
  check fmt_list = Raised e ->
  exists i fmt,
    nth_error fmt_list i = Some fmt
    /\ offending fmt_list i
    /\ e = FormatError (message_template ++ str (VDict fmt)).
Proof.
  rewrite check_find.
  destruct (find_offender _ _ _) as [[j fmt]|] eqn:F; [|discriminate].
  intros [= <-].
  apply first_offender_Some in F as (Hn & Hoff & _).
  now exists j, fmt.
Qed.

(** C5. A format without a [size] key never makes [check] fail, wherever
    it stands: the body of the loop falls through to the next item, and a
    failure of [check] was raised at another index, one whose format has a
    [size]. *)
Theorem sizeless_format_never_fails
    (fmt_list : list dict) (i : nat) (fmt : dict) :
  nth_error fmt_list i = Some fmt ->
  has_size fmt = false ->
  body fmt_list i fmt = Returned tt
  /\ forall e, check fmt_list = Raised e ->
       exists j fmt',
         j <> i
         /\ nth_error fmt_list j = Some fmt'
         /\ has_size fmt' = true
         /\ e = FormatError (format_message fmt')
         /\ fst (run fmt_list (S (List.length fmt_list)) (start fmt_list))
            = seq 0 (S j).
Proof.
  intros Hn Hs.
  assert (V : varlen fmt = false).
  { destruct (varlen fmt) eqn:V; [|reflexivity].
    apply varlen_has_size in V. congruence. }
  split.
  - rewrite body_spec, V. reflexivity.
  - intros e. unfold start. rewrite check_find, run_find.
    destruct (find_offender _ _ _) as [[j fmt']|] eqn:F; [|discriminate].
    intros [= <-].
    apply first_offender_Some in F as (Hj & (x & Hx & Vx & _) & _).
    assert (x = fmt') by congruence. subst x.
    exists j, fmt'. repeat split; auto.
    + intros ->. congruence.
    + now apply varlen_has_size.
    + simpl. now rewrite Nat.sub_0_r.
Qed.

(** C6. A format whose [size] key is present falls under the rule exactly
    when the value of [size] is numerically equal to 0: at an index other
    than the last the body raises the error if and only if it is. *)
Theorem size_rule_iff_numerically_zero
    (fmt_list : list dict) (i : nat) (fmt : dict) (size : value) :
  getitem fmt "size" = Returned size ->
  Z.of_nat i <> last_index fmt_list ->
  (body fmt_list i fmt = Raised (FormatError (format_message fmt))
   <-> numerically_zero size).
Proof.
  intros G N. rewrite <- eq_int_zero, body_spec.
  unfold varlen. rewrite G.
  apply Z.eqb_neq in N. rewrite N. simpl. rewrite andb_true_r.
  destruct (eq_int size 0); split; congruence.
Qed.

(** *** The claims at the scenarios of the specification *)

Lemma offending_varlen_first : offending Scenario.varlen_first 0.
Proof.
  exists (Scenario.size 0).
  split; [reflexivity | split; [reflexivity | vm_compute; discriminate]].
Qed.

Lemma offending_two_varlen : offending Scenario.two_varlen 0.
Proof.
  exists (Scenario.size 0).
  split; [reflexivity | split; [reflexivity | vm_compute; discriminate]].
Qed.

Lemma check_raises_at_first_offender_witness :
  (exists i, offending Scenario.two_varlen i)
  /\ exists i fmt,
       nth_error Scenario.two_varlen i = Some fmt
       /\ offending Scenario.two_varlen i
       /\ (forall j, (j < i)%nat -> ~ offending Scenario.two_varlen j)
       /\ check Scenario.two_varlen = Raised (FormatError (format_message fmt))
       /\ run Scenario.two_varlen (S (List.length Scenario.two_varlen))
              (start Scenario.two_varlen)
          = (seq 0 (S i), Some (Raised (FormatError (format_message fmt)))).
Proof.
  assert (H : exists i, offending Scenario.two_varlen i)
    by (exists 0%nat; exact offending_two_varlen).
  split; [exact H | exact (check_raises_at_first_offender _ H)].
Defined.

(** C3, as the specification states it, fails on [[{"size": 0},
    {"size": 4}]]: the error raised there holds the text of the source with
    the format written into it, which is not the quoted message. *)
Lemma check_message_not_quoted :
  check Scenario.varlen_first
  = Raised (FormatError (message_template ++ "{'size': 0}"))
  /\ FormatError (message_template ++ "{'size': 0}")
     <> FormatError quoted_message.
Proof. split; [vm_compute; reflexivity | vm_compute; discriminate]. Qed.

Lemma check_error_message_witness :
  check Scenario.varlen_first = Raised (FormatError (format_message (Scenario.size 0)))
  /\ exists i fmt,
       nth_error Scenario.varlen_first i = Some fmt
       /\ offending Scenario.varlen_first i
       /\ FormatError (format_message (Scenario.size 0))
          = FormatError (message_template ++ str (VDict fmt)).
Proof.
  assert (H : check Scenario.varlen_first
              = Raised (FormatError (format_message (Scenario.size 0))))
    by (vm_compute; reflexivity).
  split; [exact H | exact (check_error_message _ _ H)].
Defined.

Lemma check_true_varlen_only_last_witness :
  check Scenario.varlen_last = Returned true
  /\ (List.length (filter varlen Scenario.varlen_last) <= 1)%nat
  /\ forall i fmt, nth_error Scenario.varlen_last i = Some fmt ->
       varlen fmt = true -> Z.of_nat i = last_index Scenario.varlen_last.
Proof.
  assert (H : check Scenario.varlen_last = Returned true) by reflexivity.
  split; [exact H | exact (check_true_varlen_only_last _ H)].
Defined.

Lemma sizeless_format_never_fails_witness :
  nth_error Scenario.float_varlen 0 = Some (Scenario.name "a")
  /\ has_size (Scenario.name "a") = false
  /\ body Scenario.float_varlen 0 (Scenario.name "a") = Returned tt
  /\ forall e, check Scenario.float_varlen = Raised e ->
       exists j fmt',
         j <> 0%nat
         /\ nth_error Scenario.float_varlen j = Some fmt'
         /\ has_size fmt' = true
         /\ e = FormatError (format_message fmt')
         /\ fst (run Scenario.float_varlen
                     (S (List.length Scenario.float_varlen))
                     (start Scenario.float_varlen))
            = seq 0 (S j).
Proof.
  split; [reflexivity | split; [reflexivity|]].
  apply (sizeless_format_never_fails Scenario.float_varlen 0
           (Scenario.name "a")); reflexivity.
Defined.

Lemma size_rule_iff_numerically_zero_witness :
  getitem [("size", VFloat (S754_zero false))] "size"
  = Returned (VFloat (S754_zero false))
  /\ Z.of_nat 1 <> last_index Scenario.float_varlen
  /\ (body Scenario.float_varlen 1 [("size", VFloat (S754_zero false))]
      = Raised (FormatError
                  (format_message [("size", VFloat (S754_zero false))]))
      <-> numerically_zero (VFloat (S754_zero false))).
Proof.
  assert (N : Z.of_nat 1 <> last_index Scenario.float_varlen)
    by (vm_compute; discriminate).
  split; [reflexivity | split; [exact N|]].
  apply (size_rule_iff_numerically_zero Scenario.float_varlen 1
           [("size", VFloat (S754_zero false))]); [reflexivity | exact N].
Defined.

Lemma check_prefix_closed_witness :
  check ([Scenario.size 4; Scenario.size 0] ++ [Scenario.size 0])
  = Raised (FormatError (format_message (Scenario.size 0)))
  /\ check ([Scenario.size 4] ++ [Scenario.size 0]) = Returned true
  /\ check [Scenario.size 4] = Returned true.
Proof.
  split; [vm_compute; reflexivity | split; [reflexivity|]].
  apply (check_prefix_closed [Scenario.size 4] [Scenario.size 0]).
  reflexivity.
Defined.

Lemma check_depends_on_sizes_witness :
  Forall2 same_size Scenario.named_sizes Scenario.sizes_named
  /\ (check Scenario.named_sizes = Returned true
      <-> check Scenario.sizes_named = Returned true).
Proof.
  assert (H : Forall2 same_size Scenario.named_sizes Scenario.sizes_named).
  { apply Forall2_cons;
      [right; exists (VInt 4); split; reflexivity|].
    apply Forall2_cons;
      [right; exists (VInt 0); split; reflexivity | apply Forall2_nil]. }
  split; [exact H | exact (check_depends_on_sizes _ _ H)].
Defined.

(** The six scenarios of the specification. *)
Example scenario_varlen_last : check Scenario.varlen_last = Returned true.
Proof. reflexivity. Qed.

Example scenario_varlen_first :
  check Scenario.varlen_first
  = Raised (FormatError (format_message (Scenario.size 0))).
Proof. vm_compute. reflexivity. Qed.

Example scenario_no_sizes : check Scenario.no_sizes = Returned true.
Proof. reflexivity. Qed.

Example scenario_empty : check [] = Returned true.
Proof. reflexivity. Qed.

Example scenario_sole_varlen : check Scenario.sole_varlen = Returned true.
Proof. reflexivity. Qed.

Example scenario_two_varlen :
  check Scenario.two_varlen
  = Raised (FormatError (format_message (Scenario.size 0)))
  /\ fst (run Scenario.two_varlen 4 (start Scenario.two_varlen)) = [0%nat].
Proof. split; vm_compute; reflexivity. Qed.

(** Values of [size] that equal 0 and values that do not. *)
Example zero_like_sizes :
  map (fun v => eq_int v 0)
      [VInt 0; VBool false; VFloat (S754_zero false); VFloat (S754_zero true);
       VNone; VStr ""; VList []; VDict []; VBool true; VInt 4;
       VFloat (S754_finite false 1 (-1074)); VFloat S754_nan]
  = [true; true; true; true;
     false; false; false; false; false; false; false; false].
Proof. reflexivity. Qed.

(** What [str] gives for a format, and the message built from it. *)
Example str_of_a_format :
  str (VDict [("size", VInt 0); ("name", VStr "a");
              ("scale", VFloat (S754_finite false 3 (-1)));
              ("tags", VList [VNone; VBool true; VStr "a\b"])])
  = "{'size': 0, 'name': 'a', 'scale': 1.5, 'tags': [None, True, 'a\\b']}".
Proof. vm_compute. reflexivity. Qed.

Example repr_of_floats :
  map repr_float
      [S754_finite false 3602879701896397 (-55);
       S754_finite true 1 (-1074);
       S754_finite false 4503599627370496 1;
       S754_finite false 5 1;
       S754_finite false 5902958103587057 (-69)]
  = ["0.1"; "-5e-324"; "9007199254740992.0"; "10.0"; "1e-05"].
Proof. vm_compute. reflexivity. Qed.

(** ** Further properties of [check]

    How the outcome of [check] behaves when format lists are joined,
    extended or shortened, and how far the scan goes. *)

Lemma check_true_nth (fmt_list : list dict) :
  check fmt_list = Returned true <->
  forall n fmt, nth_error fmt_list n = Some fmt -> varlen fmt = true ->
                Z.of_nat n = last_index fmt_list.
Proof. rewrite check_true_find. apply (find_offender_None _ _ 0%nat). Qed.

Lemma find_offender_intro (last : Z) (xs : list dict) :
  forall (i n : nat) (fmt : dict),
    nth_error xs n = Some fmt -> varlen fmt = true ->
    Z.of_nat (i + n) <> last ->
    (forall n' fmt', (n' < n)%nat -> nth_error xs n' = Some fmt' ->
       varlen fmt' = true -> Z.of_nat (i + n') = last) ->
    find_offender last i xs = Some ((i + n)%nat, fmt).
Proof.
  induction xs as [|x rest IH]; intros i [|n] fmt Hn V N Before;
    simpl in Hn; try discriminate.
  - inversion Hn; subst. simpl. rewrite V. rewrite Nat.add_0_r in *.
    apply Z.eqb_neq in N. rewrite N. reflexivity.
  - simpl.
    assert (T : varlen x && negb (Z.of_nat i =? last) = false).
    { destruct (varlen x) eqn:Vx; [|reflexivity]. simpl.
      apply negb_false_iff, Z.eqb_eq.
      specialize (Before 0%nat x ltac:(lia) eq_refl Vx).
      now rewrite Nat.add_0_r in Before. }
    rewrite T. replace (i + S n)%nat with (S i + n)%nat by lia.
    apply IH; auto.
    + replace (S i + n)%nat with (i + S n)%nat by lia. exact N.
    + intros n' fmt' Hlt Hn' V'.
      replace (S i + n')%nat with (i + S n')%nat by lia.
      apply (Before (S n') fmt'); auto. lia.
Qed.

Lemma check_raises_intro (fmt_list : list dict) (n : nat) (fmt : dict) :
  nth_error fmt_list n = Some fmt -> varlen fmt = true ->
  Z.of_nat n <> last_index fmt_list ->
  (forall n' fmt', (n' < n)%nat -> nth_error fmt_list n' = Some fmt' ->
     varlen fmt' = true -> Z.of_nat n' = last_index fmt_list) ->
  check fmt_list = Raised (FormatError (format_message fmt)).
Proof.
  intros Hn V N Before. rewrite check_find.
  rewrite (find_offender_intro _ _ 0%nat n fmt Hn V N Before). reflexivity.
Qed.

Lemma find_offender_index_same_size (last : Z) (xs ys : list dict) :
  Forall2 same_size xs ys ->
  forall i, option_map fst (find_offender last i xs)
            = option_map fst (find_offender last i ys).
Proof.
  induction 1 as [|x y xs ys Hxy _ IH]; intros i; simpl; [reflexivity|].
  rewrite (same_size_varlen x y Hxy).
  destruct (varlen y && negb (Z.of_nat i =? last)); [reflexivity | apply IH].
Qed.

Lemma nth_error_In_varlen (l : list dict) (n : nat) (fmt : dict) :
  (forall f, In f l -> varlen f = false) ->
  nth_error l n = Some fmt -> varlen fmt = true -> False.
Proof.
  intros H Hn V. apply nth_error_In in Hn. rewrite (H fmt Hn) in V.
  discriminate.
Qed.

(** X1. Joining two lists, the second not empty: [check] returns [True] on
    the joined list exactly when no format of the first list has a size
    equal to 0 and [check] returns [True] on the second. *)
Theorem check_app_true (p s : list dict) :
  s <> [] ->
  (check (p ++ s) = Returned true
   <-> (forall f, In f p -> varlen f = false) /\ check s = Returned true).
Proof.
  intros Hs.
  assert (Ls : (0 < List.length s)%nat)
    by (destruct s; [contradiction | simpl; lia]).
  rewrite !check_true_nth. split.
  - intros H. split.
    + intros f Hin. destruct (varlen f) eqn:V; [exfalso | reflexivity].
      apply In_nth_error in Hin as [n Hn].
      assert (Hlt : (n < List.length p)%nat)
        by (apply nth_error_Some; congruence).
      specialize (H n f). rewrite nth_error_app1 in H by exact Hlt.
      specialize (H Hn V). rewrite last_index_app in H.
      unfold last_index in H. lia.
    + intros n fmt Hn V.
      specialize (H (List.length p + n)%nat fmt).
      rewrite nth_error_app2 in H by lia.
      replace (List.length p + n - List.length p)%nat with n in H by lia.
      specialize (H Hn V). rewrite last_index_app in H.
      unfold last_index in *. lia.
  - intros [Hp H] n fmt Hn V.
    destruct (Nat.lt_ge_cases n (List.length p)) as [Hlt|Hge].
    + rewrite nth_error_app1 in Hn by exact Hlt.
      exfalso. exact (nth_error_In_varlen p n fmt Hp Hn V).
    + rewrite nth_error_app2 in Hn by exact Hge.
      specialize (H _ _ Hn V). rewrite last_index_app.
      unfold last_index in *. lia.
Qed.

(** X2. A failure is kept by any extension of the list: when [check] raises
    an error on a list, it raises the same error on that list followed by
    any further formats. *)
Theorem check_failure_extends (fmt_list s : list dict) (e : exn) :
  check fmt_list = Raised e -> check (fmt_list ++ s) = Raised e.
Proof.
  rewrite check_find.
  destruct (find_offender _ _ _) as [[j fmt]|] eqn:F; [|discriminate].
  intros [= <-].
  apply find_offender_Some in F as (n & -> & Hn & V & N & Before).
  simpl in *.
  assert (Hlt : (n < List.length fmt_list)%nat)
    by (apply nth_error_Some; congruence).
  apply (check_raises_intro _ n fmt); auto.
  - now rewrite nth_error_app1.
  - rewrite last_index_app. unfold last_index in *. lia.
  - intros n' fmt' Hlt' Hn' V'.
    rewrite nth_error_app1 in Hn' by lia.
    specialize (Before n' fmt' Hlt' Hn' V'). unfold last_index in Before. lia.
Qed.

(** X3. Anything that follows the first format of size 0 makes [check] fail
    and the error names that format: with no such format before it and at
    least one format after it, the error is the one built from it, whatever
    the formats around it hold. *)
Theorem check_blames_first_varlen (pre t : list dict) (x : dict) :
  (forall f, In f pre -> varlen f = false) ->
  varlen x = true ->
  t <> [] ->
  check (pre ++ x :: t) = Raised (FormatError (format_message x)).
Proof.
  intros Hpre V Ht.
  assert (Lt : (0 < List.length t)%nat)
    by (destruct t; [contradiction | simpl; lia]).
  apply (check_raises_intro _ (List.length pre) x); auto.
  - rewrite nth_error_app2 by lia. now rewrite Nat.sub_diag.
  - rewrite last_index_app. unfold last_index. simpl. lia.
  - intros n' fmt' Hlt Hn' V'. exfalso.
    rewrite nth_error_app1 in Hn' by exact Hlt.
    exact (nth_error_In_varlen pre n' fmt' Hpre Hn' V').
Qed.

(** X4. Success is kept when a format is taken out: when [check] returns
    [True] on a list it returns [True] on the list without any one of its
    formats. *)
Theorem check_true_delete (pre post : list dict) (x : dict) :
  check (pre ++ x :: post) = Returned true ->
  check (pre ++ post) = Returned true.
Proof.
  rewrite !check_true_nth. intros H n fmt Hn V.
  destruct (Nat.lt_ge_cases n (List.length pre)) as [Hlt|Hge].
  - rewrite nth_error_app1 in Hn by exact Hlt.
    specialize (H n fmt). rewrite nth_error_app1 in H by exact Hlt.
    specialize (H Hn V). rewrite last_index_app in H.
    unfold last_index in H. simpl in H. lia.
  - rewrite nth_error_app2 in Hn by exact Hge.
    specialize (H (S n) fmt). rewrite nth_error_app2 in H by lia.
    replace (S n - List.length pre)%nat
      with (S (n - List.length pre)) in H by lia.
    specialize (H Hn V). rewrite last_index_app in *.
    unfold last_index in *. simpl in H. lia.
Qed.

(** X5. A test for success: [check] returns [True] exactly when the list
    without its last element holds no format with a size equal to 0. *)
Theorem check_true_iff_init_fixed (fmt_list : list dict) :
  check fmt_list = Returned true
  <-> existsb varlen (removelast fmt_list) = false.
Proof.
  destruct fmt_list as [|x p _] using rev_ind; [split; reflexivity|].
  rewrite removelast_last, check_true_nth. split.
  - intros H. destruct (existsb varlen p) eqn:E; [exfalso | reflexivity].
    apply existsb_exists in E as (f & Hin & V).
    apply In_nth_error in Hin as [n Hn].
    assert (Hlt : (n < List.length p)%nat)
      by (apply nth_error_Some; congruence).
    specialize (H n f). rewrite nth_error_app1 in H by exact Hlt.
    specialize (H Hn V). rewrite last_index_app in H.
    unfold last_index in H. simpl in H. lia.
  - intros E n fmt Hn V.
    assert (Hlen : (n < List.length (p ++ [x]))%nat)
      by (apply nth_error_Some; congruence).
    rewrite length_app in Hlen. simpl in Hlen.
    destruct (Nat.lt_ge_cases n (List.length p)) as [Hlt|Hge].
    + rewrite nth_error_app1 in Hn by exact Hlt. exfalso.
      assert (T : existsb varlen p = true)
        by (apply existsb_exists; exists fmt; split;
            [now apply nth_error_In with n | exact V]).
      congruence.
    + rewrite last_index_app. unfold last_index. simpl. lia.
Qed.

(** X6. The loop runs its body for every format of the list exactly when
    [check] returns [True]; a failing scan stops before the end. *)
Theorem scan_complete_iff_true (fmt_list : list dict) :
  List.length (fst (run fmt_list (S (List.length fmt_list)) (start fmt_list)))
  = List.length fmt_list
  <-> check fmt_list = Returned true.
Proof.
  unfold start. rewrite run_find, check_find.
  destruct (find_offender _ _ _) as [[j fmt]|] eqn:F; simpl.
  - apply find_offender_Some in F as (n & -> & Hn & _ & N & _).
    assert (Hlt : (n < List.length fmt_list)%nat)
      by (apply nth_error_Some; congruence).
    simpl in N. unfold last_index in N.
    rewrite length_seq. split; [intros H; lia | discriminate].
  - rewrite length_seq. split; reflexivity.
Qed.

(** X7. How far the scan goes depends on the [size] entries alone: on two
    lists whose formats agree on [size] index by index, the loop runs its
    body for the same indices. *)
Theorem scan_depends_on_sizes (xs ys : list dict) :
  Forall2 same_size xs ys ->
  fst (run xs (S (List.length xs)) (start xs))
  = fst (run ys (S (List.length ys)) (start ys)).
Proof.
  intros H. unfold start. rewrite !run_find.
  assert (E : last_index xs = last_index ys)
    by (unfold last_index; now rewrite (Forall2_length H)).
  pose proof (find_offender_index_same_size (last_index ys) xs ys H 0%nat) as I.
  rewrite E. rewrite (Forall2_length H).
  destruct (find_offender (last_index ys) 0 xs) as [[j fmt]|];
    destruct (find_offender (last_index ys) 0 ys) as [[j' fmt']|];
    simpl in I; try discriminate; [|reflexivity].
  inversion I; subst. reflexivity.
Qed.

(** X8. [check] never returns [False] and never lets the [KeyError] of a
    missing [size] escape. *)
Theorem check_never_false_nor_KeyError (fmt_list : list dict) :
  check fmt_list <> Returned false
  /\ forall key, check fmt_list <> Raised (KeyError key).
Proof.
  rewrite check_find.
  destruct (find_offender _ _ _) as [[j fmt]|]; split; try intros key;
    discriminate.
Qed.

Lemma check_app_true_witness :
  [Scenario.size 0] <> []
  /\ (check ([Scenario.size 4] ++ [Scenario.size 0]) = Returned true
      <-> (forall f, In f [Scenario.size 4] -> varlen f = false)
          /\ check [Scenario.size 0] = Returned true).
Proof.
  assert (H : [Scenario.size 0] <> []) by discriminate.
  split; [exact H | exact (check_app_true _ _ H)].
Defined.

Lemma check_failure_extends_witness :
  check Scenario.varlen_first
  = Raised (FormatError (format_message (Scenario.size 0)))
  /\ check (Scenario.varlen_first ++ [Scenario.name "a"])
     = Raised (FormatError (format_message (Scenario.size 0))).
Proof.
  assert (H : check Scenario.varlen_first
              = Raised (FormatError (format_message (Scenario.size 0))))
    by (vm_compute; reflexivity).
  split; [exact H | exact (check_failure_extends _ _ _ H)].
Defined.

Lemma check_blames_first_varlen_witness :
  (forall f, In f [Scenario.name "a"] -> varlen f = false)
  /\ varlen [("size", VFloat (S754_zero false))] = true
  /\ [Scenario.size 4] <> []
  /\ check ([Scenario.name "a"]
            ++ [("size", VFloat (S754_zero false))] :: [Scenario.size 4])
     = Raised (FormatError
                 (format_message [("size", VFloat (S754_zero false))])).
Proof.
  assert (H1 : forall f, In f [Scenario.name "a"] -> varlen f = false)
    by (intros f [<-|[]]; reflexivity).
  assert (H2 : varlen [("size", VFloat (S754_zero false))] = true)
    by reflexivity.
  assert (H3 : [Scenario.size 4] <> []) by discriminate.
  split; [exact H1 | split; [exact H2 | split; [exact H3|]]].
  exact (check_blames_first_varlen _ _ _ H1 H2 H3).
Defined.

Lemma check_true_delete_witness :
  check ([Scenario.size 4] ++ Scenario.name "a" :: [Scenario.size 0])
  = Returned true
  /\ check ([Scenario.size 4] ++ [Scenario.size 0]) = Returned true.
Proof.
  split; [reflexivity|].
  apply (check_true_delete [Scenario.size 4] [Scenario.size 0]
           (Scenario.name "a")).
  reflexivity.
Defined.

Lemma scan_depends_on_sizes_witness :
  Forall2 same_size Scenario.named_sizes Scenario.sizes_named
  /\ fst (run Scenario.named_sizes (S (List.length Scenario.named_sizes))
              (start Scenario.named_sizes))
     = fst (run Scenario.sizes_named (S (List.length Scenario.sizes_named))
                (start Scenario.sizes_named)).
Proof.
  assert (H : Forall2 same_size Scenario.named_sizes Scenario.sizes_named).
  { apply Forall2_cons;
      [right; exists (VInt 4); split; reflexivity|].
    apply Forall2_cons;
      [right; exists (VInt 0); split; reflexivity | apply Forall2_nil]. }
  split; [exact H | exact (scan_depends_on_sizes _ _ H)].
Defined.
